(** * seven_segment.c: a shallow embedding of the seven-segment character
      device and its class attribute.

    The driver keeps one [char] register, [digit_to_display], inside a
    kmalloc'ed [struct seven_segment_dev]; the register is reached through
    the file operations [seven_segment_read] / [seven_segment_write] and
    through the class attribute [digit_to_display_show] /
    [digit_to_display_store].  Kernel services the driver calls (chrdev
    regions, classes, kmalloc, uaccess) are modelled by their effect on an
    explicit [world]; their outcomes come from an oracle. *)

From Stdlib Require Import ZArith List Bool Lia.
Import ListNotations.
Local Open Scope Z_scope.

(** ** C data representation *)

(** Plain [char] is signed or unsigned depending on the target, and
    [size_t]/[ssize_t] are 32 or 64 bits wide.  Nothing below fixes either
    choice. *)
Inductive signedness := SignedChar | UnsignedChar.
Inductive wordsize := W32 | W64.

Record abi := mk_abi { char_sign : signedness; word : wordsize }.

(** A [char] object is kept as its raw byte, a [Z] in [0, 256). *)
Definition int_to_char (v : Z) : Z := v mod 256.

(** Integer promotion of a [char] holding raw byte [b]. *)
Definition char_to_int (a : abi) (b : Z) : Z :=
  match char_sign a with
  | UnsignedChar => b
  | SignedChar => if b <? 128 then b else b - 256
  end.

Definition long_bits (a : abi) : Z :=
  match word a with W32 => 32 | W64 => 64 end.

Definition SSIZE_MAX (a : abi) : Z := 2 ^ (long_bits a - 1) - 1.

(** Conversion of a [size_t] value to [ssize_t] (as in [return count;]). *)
Definition size_to_ssize (a : abi) (n : Z) : Z :=
  let m := n mod 2 ^ long_bits a in
  if m <=? SSIZE_MAX a then m else m - 2 ^ long_bits a.

Definition USE_NUMBER_OF_DIGITS : Z := 1.

Definition EFAULT : Z := 14.
Definition EINVAL : Z := 22.
Definition ENOMEM : Z := 12.

(** The character constants ['0'], ['1'] and ['\n']. *)
Definition chr_0 : Z := 48.
Definition chr_1 : Z := 49.
Definition chr_nl : Z := 10.

(** ** The world the driver runs in *)

Record seven_segment_dev := mk_dev { digit_to_display : Z }.

(** What the module takes from the kernel, one constructor per
    acquisition in [seven_segment_init]. *)
Inductive resource :=
| ChrdevRegion      (* alloc_chrdev_region / unregister_chrdev_region *)
| DisplayClass      (* class_register / class_destroy *)
| DevMemory         (* kmalloc(sizeof(struct seven_segment_dev)) / kfree *)
| CharDevice        (* cdev_add *)
| DeviceNode        (* device_create / device_destroy *)
| MessageBuffer.    (* kmalloc(USE_NUMBER_OF_DIGITS) *)

Definition resource_eqb (x y : resource) : bool :=
  match x, y with
  | ChrdevRegion, ChrdevRegion | DisplayClass, DisplayClass
  | DevMemory, DevMemory | CharDevice, CharDevice
  | DeviceNode, DeviceNode | MessageBuffer, MessageBuffer => true
  | _, _ => false
  end.

(** Pointers to the device structure: either NULL or the one object
    [seven_segment_devp] points to. *)
Inductive pointer := NULL | DEVP.

Record file := mk_file { private_data : pointer }.

Record world := mk_world {
  (* the object behind the global [seven_segment_devp]; [None] is NULL *)
  seven_segment_devp : option seven_segment_dev;
  (* the buffer behind the global [message]; [None] is NULL *)
  message : option (list Z);
  (* bytes a copy stored past the last byte of [message] *)
  past_message : list Z;
  (* resources currently held, the most recently acquired first *)
  held : list resource;
  (* every release call made so far, in call order *)
  released : list resource;
  (* every display_on_screen call so far, in call order, with the bytes
     its argument points to *)
  screen : list (list Z)
}.

(** The state before insmod: both globals are zero-initialised. *)
Definition unloaded : world :=
  mk_world None None [] [] [] [].

(** ** A state monad with a fault

    [None] is a kernel oops (a NULL pointer dereference); every other
    outcome is a value and the next world. *)
Definition M (A : Type) : Type := world -> option (A * world).

Definition ret {A} (x : A) : M A := fun w => Some (x, w).

Definition bind {A B} (m : M A) (f : A -> M B) : M B :=
  fun w => match m w with
           | Some (x, w') => f x w'
           | None => None
           end.

Definition oops {A} : M A := fun _ => None.

Declare Scope drv_scope.
Delimit Scope drv_scope with drv.
Notation "x <- m ;; k" := (bind m (fun x => k))
  (at level 100, m at next level, right associativity) : drv_scope.
Notation "m ;; k" := (bind m (fun _ => k))
  (at level 100, right associativity) : drv_scope.
Local Open Scope drv_scope.

Definition get_world : M world := fun w => Some (w, w).
Definition put_world (w : world) : M unit := fun _ => Some (tt, w).

(** [p->digit_to_display] as an rvalue. *)
Definition load_digit (p : pointer) : M Z :=
  w <- get_world ;;
  match p, seven_segment_devp w with
  | DEVP, Some d => ret (digit_to_display d)
  | _, _ => oops
  end.

(** [p->digit_to_display = v], [v] an [int] converted to [char]. *)
Definition store_digit (p : pointer) (v : Z) : M unit :=
  w <- get_world ;;
  match p, seven_segment_devp w with
  | DEVP, Some _ =>
      put_world (mk_world (Some (mk_dev (int_to_char v))) (message w)
                          (past_message w) (held w) (released w) (screen w))
  | _, _ => oops
  end.

(** The value of the global pointer [seven_segment_devp]. *)
Definition global_devp : M pointer :=
  w <- get_world ;;
  ret (match seven_segment_devp w with Some _ => DEVP | None => NULL end).

(** Modelled from the spec: the actuator [display_on_screen], which is
    declared in seven_segment.h and defined outside this file; the spec
    gives it as an operation with a side effect, no result and no failure.
    The call is recorded together with the bytes [buf] points to. *)
Definition display_on_screen (buf : list Z) : M unit :=
  w <- get_world ;;
  put_world (mk_world (seven_segment_devp w) (message w) (past_message w)
                      (held w) (released w) (screen w ++ [buf])).

(** ** Memory behind [message] *)

(** [overlay data old]: [data] stored from offset 0 over [old]. *)
Definition overlay (data old : list Z) : list Z :=
  data ++ skipn (length data) old.

(** Store [data] at address [message].  The object is [length msg] bytes
    long; whatever [data] has beyond that lands in [past_message]. *)
Definition write_message (data : list Z) : M unit :=
  w <- get_world ;;
  match message w with
  | None => oops
  | Some msg =>
      let size := length msg in
      put_world (mk_world (seven_segment_devp w)
                          (Some (firstn size (overlay data msg)))
                          (overlay (skipn size data) (past_message w))
                          (held w) (released w) (screen w))
  end.

(** The contents of the object [message] points to. *)
Definition read_message : M (list Z) :=
  w <- get_world ;;
  match message w with
  | None => oops
  | Some msg => ret msg
  end.

(** [memset(message, c, n)]. *)
Definition memset_message (c n : Z) : M unit :=
  write_message (repeat c (Z.to_nat n)).

(** [copy_from_user(message, buf, n)], where [ubuf] lists the bytes that
    can be fetched from the user address [buf] onwards.  The bytes that
    could not be fetched are zero-filled in the destination and their
    number is the result. *)
Definition copy_from_user_message (ubuf : list Z) (n : Z) : M Z :=
  let got := firstn (Z.to_nat n) ubuf in
  let missing := n - Z.of_nat (length got) in
  write_message (got ++ repeat 0 (Z.to_nat missing)) ;;
  ret missing.

(** ** The class attribute *)

(** [sprintf(buf, "%c\n", '0' + seven_segment_devp->digit_to_display)]:
    the result is the number of characters printed and the characters. *)
Definition digit_to_display_show (a : abi) : M (Z * list Z) :=
  p <- global_devp ;;
  d <- load_digit p ;;
  let c := int_to_char (chr_0 + char_to_int a d) in
  ret (2, [c; chr_nl]).

(** [buf] is the attribute buffer, [buf[0]] its first byte (the buffer is
    NUL-terminated, so an empty one reads 0). *)
Definition digit_to_display_store (a : abi) (buf : list Z) (count : Z) : M Z :=
  let b0 := char_to_int a (nth 0 buf 0) in
  (if (b0 - chr_0 <? 10) && (b0 - chr_0 >=? 0) then
     p <- global_devp ;;
     store_digit p (b0 - chr_0) ;;
     display_on_screen buf
   else ret tt) ;;
  ret 1.

(** ** The file operations *)

Record inode := mk_inode { i_cdev : pointer }.

(** [container_of(inode->i_cdev, struct seven_segment_dev, cdev)]: [cdev]
    is a member of the device structure, so a pointer to it determines
    the enclosing object. *)
Definition container_of_cdev (p : pointer) : pointer := p.

Definition seven_segment_open (ino : inode) (filp : file) : file * Z :=
  (mk_file (container_of_cdev (i_cdev ino)), 0).

Definition seven_segment_release (ino : inode) (filp : file) : file * Z :=
  (mk_file NULL, 0).

(** The body of the [for] loop of [seven_segment_read].  [rem] is
    [count - retval]: the test [retval < count] fails exactly when it is
    0.  [writable i] tells whether [put_user] to [buf + i] succeeds; [out]
    collects the bytes stored so far, [buf[0]] first. *)
Fixpoint read_loop (a : abi) (p : pointer) (writable : Z -> bool)
    (rem : nat) (retval : Z) (out : list Z) : M (Z * list Z) :=
  match rem with
  | O => ret (retval, out)
  | S rem' =>
      d <- load_digit p ;;
      let byte := int_to_char (chr_0 + char_to_int a d) in
      if writable retval
      then read_loop a p writable rem' (retval + 1) (out ++ [byte])
      else ret (retval, out)
  end.

Definition seven_segment_read (a : abi) (filp : file) (writable : Z -> bool)
    (count : Z) : M (Z * list Z) :=
  let seven_segment_devp := private_data filp in
  read_loop a seven_segment_devp writable (Z.to_nat count) 0 [].

(** [ubuf] lists the bytes readable at the user address [buf]; [count] is
    the length the caller passed.  [f_pos += count] moves a local copy of
    the pointer and has no effect. *)
Definition seven_segment_write (a : abi) (filp : file) (ubuf : list Z)
    (count : Z) : M Z :=
  let seven_segment_devp := private_data filp in
  memset_message 0 USE_NUMBER_OF_DIGITS ;;
  r <- copy_from_user_message ubuf count ;;
  if negb (r =? 0) then ret (- EFAULT) else
  msg <- read_message ;;
  store_digit seven_segment_devp (char_to_int a (nth 0 msg 0) - chr_0) ;;
  display_on_screen msg ;;
  ret (size_to_ssize a count).

(** ** Module load and unload *)

(** Outcomes of the kernel services [seven_segment_init] calls: an
    [option positive] is an errno on failure, a [bool] tells whether a
    pointer-returning service gave a non-NULL pointer; the two [junk]
    fields are the uninitialised contents of fresh kmalloc memory. *)
Record kernel_api := mk_api {
  alloc_chrdev_region_err : option positive;
  class_register_err : option positive;
  kmalloc_dev_ok : bool;
  kmalloc_dev_junk : Z;
  cdev_add_err : option positive;
  device_create_ok : bool;
  kmalloc_message_ok : bool;
  kmalloc_message_junk : Z
}.

Definition errno_ret (e : option positive) : Z :=
  match e with None => 0 | Some n => Z.neg n end.

Definition acquire (r : resource) : M unit :=
  w <- get_world ;;
  put_world (mk_world (seven_segment_devp w) (message w) (past_message w)
                      (r :: held w) (released w) (screen w)).

Definition drop (r : resource) (l : list resource) : list resource :=
  filter (fun x => negb (resource_eqb r x)) l.

Definition release (r : resource) : M unit :=
  w <- get_world ;;
  put_world (mk_world (seven_segment_devp w) (message w) (past_message w)
                      (drop r (held w)) (released w ++ [r]) (screen w)).

Definition alloc_chrdev_region (k : kernel_api) : M Z :=
  (match alloc_chrdev_region_err k with
   | None => acquire ChrdevRegion
   | Some _ => ret tt
   end) ;;
  ret (errno_ret (alloc_chrdev_region_err k)).

Definition unregister_chrdev_region : M unit := release ChrdevRegion.

Definition class_register (k : kernel_api) : M Z :=
  (match class_register_err k with
   | None => acquire DisplayClass
   | Some _ => ret tt
   end) ;;
  ret (errno_ret (class_register_err k)).

Definition class_destroy : M unit := release DisplayClass.

(** [seven_segment_devp = kmalloc(sizeof(struct seven_segment_dev), ...)]. *)
Definition kmalloc_dev (k : kernel_api) : M pointer :=
  w <- get_world ;;
  if kmalloc_dev_ok k then
    put_world (mk_world (Some (mk_dev (int_to_char (kmalloc_dev_junk k))))
                        (message w) (past_message w)
                        (DevMemory :: held w) (released w) (screen w)) ;;
    ret DEVP
  else
    put_world (mk_world None (message w) (past_message w)
                        (held w) (released w) (screen w)) ;;
    ret NULL.

(** [kfree(seven_segment_devp)]: the object is gone. *)
Definition kfree_dev : M unit :=
  w <- get_world ;;
  put_world (mk_world None (message w) (past_message w)
                      (held w) (released w) (screen w)) ;;
  release DevMemory.

Definition cdev_add (k : kernel_api) : M Z :=
  (match cdev_add_err k with
   | None => acquire CharDevice
   | Some _ => ret tt
   end) ;;
  ret (errno_ret (cdev_add_err k)).

(** The result tells whether [device_create] returned a non-NULL
    pointer. *)
Definition device_create (k : kernel_api) : M bool :=
  (if device_create_ok k then acquire DeviceNode else ret tt) ;;
  ret (device_create_ok k).

Definition device_destroy : M unit := release DeviceNode.

(** [message = (char * )kmalloc(USE_NUMBER_OF_DIGITS, GFP_KERNEL)]. *)
Definition kmalloc_message (k : kernel_api) : M unit :=
  w <- get_world ;;
  if kmalloc_message_ok k then
    put_world (mk_world (seven_segment_devp w)
                        (Some (repeat (int_to_char (kmalloc_message_junk k))
                                      (Z.to_nat USE_NUMBER_OF_DIGITS)))
                        (past_message w)
                        (MessageBuffer :: held w) (released w) (screen w))
  else
    put_world (mk_world (seven_segment_devp w) None (past_message w)
                        (held w) (released w) (screen w)).

(** The [printk] calls only log and are left out. *)
Definition seven_segment_init (k : kernel_api) : M Z :=
  r <- alloc_chrdev_region k ;;
  if r <? 0 then ret (-1) else
  r <- class_register k ;;
  if r <? 0 then
    unregister_chrdev_region ;;
    ret (- EINVAL)
  else
  p <- kmalloc_dev k ;;
  match p with
  | NULL => ret (- ENOMEM)
  | DEVP =>
      store_digit p (chr_1 - chr_0) ;;
      ret0 <- cdev_add k ;;
      if negb (ret0 =? 0) then
        device_destroy ;;
        class_destroy ;;
        unregister_chrdev_region ;;
        ret ret0
      else
      created <- device_create k ;;
      if negb created then
        class_destroy ;;
        unregister_chrdev_region ;;
        ret (-1)
      else
      kmalloc_message k ;;
      ret 0
  end.

Definition seven_segment_exit : M unit :=
  unregister_chrdev_region ;;
  kfree_dev ;;
  device_destroy ;;
  class_destroy.

(** The order in which [seven_segment_init] acquires its resources. *)
Definition acquisition_order : list resource :=
  [ChrdevRegion; DisplayClass; DevMemory; CharDevice; DeviceNode;
   MessageBuffer].

(** The resources of [l] in the reverse of the order in which
    [seven_segment_init] acquires them. *)
Definition reverse_order_of (l : list resource) : list resource :=
  filter (fun r => existsb (resource_eqb r) l) (rev acquisition_order).

(** A kernel in which every service succeeds. *)
Definition all_ok : kernel_api :=
  mk_api None None true 0 None true true 0.

(** The world right after a load in which every service succeeded. *)
Definition booted : world :=
  mk_world (Some (mk_dev 1)) (Some [0]) []
           [MessageBuffer; DeviceNode; CharDevice; DevMemory; DisplayClass;
            ChrdevRegion]
           [] [].

(** A file opened on the device node. *)
Definition opened : file :=
  fst (seven_segment_open (mk_inode DEVP) (mk_file NULL)).

(** The register holds a decimal digit. *)
Definition digit_ok (a : abi) (w : world) : bool :=
  match seven_segment_devp w with
  | Some d => (0 <=? char_to_int a (digit_to_display d)) &&
              (char_to_int a (digit_to_display d) <=? 9)
  | None => false
  end.

(** The device structure is allocated, and so is the message buffer, with
    its [USE_NUMBER_OF_DIGITS] bytes. *)
Definition active (w : world) : bool :=
  match seven_segment_devp w, message w with
  | Some _, Some [_] => true
  | _, _ => false
  end.

Definition is_byte (b : Z) : Prop := 0 <= b < 256.

(** The character [c] is what both read paths give in world [w]: the
    attribute shows [c] and a newline, and a read of [count] bytes into a
    fully writable buffer gives [count] times [c]; neither changes [w]. *)
Definition reads_back (a : abi) (w : world) (c : Z) : Prop :=
  digit_to_display_show a w = Some ((2, [c; chr_nl]), w) /\
  forall count, 0 <= count <= SSIZE_MAX a ->
    seven_segment_read a opened (fun _ => true) count w
    = Some ((count, repeat c (Z.to_nat count)), w).

(** ** Worlds the operations lead to *)

(** World [w] with a new register value and one more actuator call. *)
Definition updated (w : world) (v : Z) (shown : list Z) : world :=
  mk_world (Some (mk_dev v)) (message w) (past_message w)
           (held w) (released w) (screen w ++ [shown]).

(** The bytes [copy_from_user] stores at [message] for a request of
    [count] bytes: what could be fetched, zero-filled to [count]. *)
Definition copied (ubuf : list Z) (count : Z) : list Z :=
  firstn (Z.to_nat count) ubuf
  ++ repeat 0 (Z.to_nat (count - Z.of_nat (length (firstn (Z.to_nat count)
                                                          ubuf)))).

(** World [w] after the two stores of [seven_segment_write] into
    [message]. *)
Definition after_copy (w : world) (ubuf : list Z) (count : Z) : world :=
  mk_world (seven_segment_devp w)
           (Some (firstn 1 (overlay (copied ubuf count) [0])))
           (overlay (skipn 1 (copied ubuf count)) (past_message w))
           (held w) (released w) (screen w).

(** ** Calls from the kernel

    Once the module is loaded the kernel calls the four entry points in
    any order: the file operations through [seven_segment_fops], the
    attribute through [class_attr_digit_to_display].  A [request] is one
    such call with its arguments. *)
Inductive request :=
| Show
| Store (buf : list Z) (count : Z)
| Read (writable : Z -> bool) (count : Z)
| Write (ubuf : list Z) (count : Z).

Definition serve (a : abi) (filp : file) (q : request) : M unit :=
  match q with
  | Show => digit_to_display_show a ;; ret tt
  | Store buf count => digit_to_display_store a buf count ;; ret tt
  | Read writable count => seven_segment_read a filp writable count ;; ret tt
  | Write ubuf count => seven_segment_write a filp ubuf count ;; ret tt
  end.

Fixpoint serve_all (a : abi) (filp : file) (qs : list request) : M unit :=
  match qs with
  | [] => ret tt
  | q :: qs' => serve a filp q ;; serve_all a filp qs'
  end.

Definition is_write (q : request) : bool :=
  match q with Write _ _ => true | _ => false end.

(** The first byte of an attribute buffer is a byte. *)
Definition byte_request (q : request) : bool :=
  match q with
  | Store buf _ => (0 <=? nth 0 buf 0) && (nth 0 buf 0 <? 256)
  | _ => true
  end.

(** The resources [seven_segment_exit] has no release call for. *)
Definition never_released (r : resource) : bool :=
  match r with
  | CharDevice | MessageBuffer => true
  | _ => false
  end.


(** One of the first two services of [seven_segment_init] fails. *)
Definition fails_early (k : kernel_api) : bool :=
  match alloc_chrdev_region_err k, class_register_err k with
  | None, None => false
  | _, _ => true
  end.

(** * Properties *)

(** ** Characters *)

Ltac mod_lia := Z.to_euclidean_division_equations; lia.

Lemma int_to_char_byte (v : Z) : is_byte (int_to_char v).
Proof. unfold is_byte, int_to_char; mod_lia. Qed.

(** The test of [digit_to_display_store] accepts exactly ['0'..'9']. *)
Lemma digit_test (a : abi) (b : Z) :
  is_byte b ->
  (char_to_int a b - chr_0 <? 10) && (char_to_int a b - chr_0 >=? 0) = true
  <-> chr_0 <= b <= chr_0 + 9.
Proof.
  unfold is_byte, char_to_int, chr_0; intros Hb.
  rewrite andb_true_iff, Z.ltb_lt, Z.geb_le.
  destruct (char_sign a); [destruct (Z.ltb_spec b 128)|]; lia.
Qed.

(** Storing [c - '0'] and printing ['0' + register] gives [c] back. *)
Lemma stored_char_shown (a : abi) (c : Z) :
  is_byte c ->
  int_to_char (chr_0 + char_to_int a (int_to_char (char_to_int a c - chr_0)))
  = c.
Proof.
  unfold is_byte, int_to_char, char_to_int, chr_0; intros Hc.
  destruct (char_sign a).
  - destruct (Z.ltb_spec c 128);
      destruct (Z.ltb_spec ((c - 48) mod 256) 128);
      destruct (Z.ltb_spec ((c - 256 - 48) mod 256) 128); mod_lia.
  - mod_lia.
Qed.

Lemma stored_digit_value (a : abi) (d : Z) :
  0 <= d <= 9 ->
  int_to_char (char_to_int a (chr_0 + d) - chr_0) = d.
Proof.
  unfold int_to_char, char_to_int, chr_0; intros Hd.
  destruct (char_sign a); [destruct (Z.ltb_spec (48 + d) 128)|]; mod_lia.
Qed.

Lemma size_to_ssize_small (a : abi) (n : Z) :
  0 <= n <= SSIZE_MAX a -> size_to_ssize a n = n.
Proof.
  unfold size_to_ssize, SSIZE_MAX, long_bits.
  destruct (word a); cbn; intros Hn.
  - rewrite Z.mod_small by lia. destruct (Z.leb_spec n 2147483647); lia.
  - rewrite Z.mod_small by lia.
    destruct (Z.leb_spec n 9223372036854775807); lia.
Qed.

(** ** The read paths *)

Lemma load_digit_devp (w : world) (d : seven_segment_dev) :
  seven_segment_devp w = Some d ->
  load_digit DEVP w = Some (digit_to_display d, w).
Proof. intros H. unfold load_digit, bind, get_world. rewrite H. reflexivity. Qed.

Lemma load_digit_frame (p : pointer) (w w' : world) (v : Z) :
  load_digit p w = Some (v, w') -> w' = w.
Proof.
  unfold load_digit, bind, get_world, ret, oops.
  destruct p, (seven_segment_devp w); congruence.
Qed.

(** The loop never changes the world, whatever it returns. *)
Lemma read_loop_frame (a : abi) (p : pointer) (writable : Z -> bool) :
  forall rem retval out w r w',
    read_loop a p writable rem retval out w = Some (r, w') -> w' = w.
Proof.
  induction rem as [|rem IH]; intros retval out w r w'; cbn [read_loop].
  - unfold ret. congruence.
  - unfold bind at 1.
    destruct (load_digit p w) as [[v w1]|] eqn:E; [|discriminate].
    apply load_digit_frame in E. subst w1.
    destruct (writable retval).
    + apply IH.
    + unfold ret. congruence.
Qed.

(** What the loop computes on an allocated device: it stops at the first
    refused position or after [rem] rounds. *)
Lemma read_loop_spec (a : abi) (writable : Z -> bool) (w : world)
    (d : seven_segment_dev) :
  seven_segment_devp w = Some d ->
  forall rem retval out,
  exists k : nat,
    read_loop a DEVP writable rem retval out w
    = Some ((retval + Z.of_nat k,
             out ++ repeat (int_to_char
                              (chr_0 + char_to_int a (digit_to_display d))) k),
            w)
    /\ (k <= rem)%nat
    /\ (forall i, retval <= i < retval + Z.of_nat k -> writable i = true)
    /\ ((k < rem)%nat -> writable (retval + Z.of_nat k) = false).
Proof.
  intros Hd. induction rem as [|rem IH]; intros retval out; cbn [read_loop].
  - exists 0%nat. cbn [repeat Z.of_nat]. rewrite Z.add_0_r, app_nil_r.
    repeat split; try lia.
  - unfold bind at 1. rewrite (load_digit_devp w d Hd).
    destruct (writable retval) eqn:Hw.
    + destruct (IH (retval + 1)
                  (out ++ [int_to_char
                             (chr_0 + char_to_int a (digit_to_display d))]))
        as (k & Hk & Hle & Hall & Hstop).
      exists (S k). rewrite Hk. cbn [repeat]. rewrite <- app_assoc.
      cbn [app]. replace (retval + 1 + Z.of_nat k)
        with (retval + Z.of_nat (S k)) in * by lia.
      repeat split; try lia.
      * intros i Hi. destruct (Z.eq_dec i retval) as [->|Hne]; [exact Hw|].
        apply Hall. lia.
      * intros Hlt. apply Hstop. lia.
    + exists 0%nat. cbn [repeat Z.of_nat]. rewrite Z.add_0_r, app_nil_r.
      repeat split; try lia.
      intros _. exact Hw.
Qed.

Lemma show_spec (a : abi) (w : world) (d : seven_segment_dev) :
  seven_segment_devp w = Some d ->
  digit_to_display_show a w
  = Some ((2, [int_to_char (chr_0 + char_to_int a (digit_to_display d));
               chr_nl]), w).
Proof.
  intros Hd. unfold digit_to_display_show, global_devp.
  unfold bind at 1. unfold bind at 1. unfold get_world at 1. cbn [ret].
  rewrite Hd. unfold bind. rewrite (load_digit_devp w d Hd). reflexivity.
Qed.

Lemma show_frame (a : abi) (w w' : world) (r : Z * list Z) :
  digit_to_display_show a w = Some (r, w') -> w' = w.
Proof.
  unfold digit_to_display_show, global_devp, load_digit, bind, get_world,
    ret, oops.
  destruct (seven_segment_devp w); congruence.
Qed.

(** ** The write paths *)

Lemma store_accepts (a : abi) (buf : list Z) (count : Z) (w : world)
    (d : seven_segment_dev) :
  seven_segment_devp w = Some d ->
  (char_to_int a (nth 0 buf 0) - chr_0 <? 10)
  && (char_to_int a (nth 0 buf 0) - chr_0 >=? 0) = true ->
  digit_to_display_store a buf count w
  = Some (1, updated w (int_to_char (char_to_int a (nth 0 buf 0) - chr_0))
                     buf).
Proof.
  intros Hd Ht. unfold digit_to_display_store. rewrite Ht.
  destruct w as [dv msg past h r sc]. cbn in Hd. subst dv. reflexivity.
Qed.

Lemma store_rejects (a : abi) (buf : list Z) (count : Z) (w : world) :
  (char_to_int a (nth 0 buf 0) - chr_0 <? 10)
  && (char_to_int a (nth 0 buf 0) - chr_0 >=? 0) = false ->
  digit_to_display_store a buf count w = Some (1, w).
Proof.
  intros Ht. unfold digit_to_display_store. rewrite Ht. reflexivity.
Qed.

Lemma write_unfold (a : abi) (filp : file) (ubuf : list Z) (count : Z)
    (w : world) (d : seven_segment_dev) (m : Z) :
  private_data filp = DEVP ->
  seven_segment_devp w = Some d ->
  message w = Some [m] ->
  seven_segment_write a filp ubuf count w
  = if negb (count - Z.of_nat (length (firstn (Z.to_nat count) ubuf)) =? 0)
    then Some (- EFAULT, after_copy w ubuf count)
    else
      let msg := firstn 1 (overlay (copied ubuf count) [0]) in
      Some (size_to_ssize a count,
            updated (after_copy w ubuf count)
                    (int_to_char (char_to_int a (nth 0 msg 0) - chr_0)) msg).
Proof.
  intros Hf Hd Hm. destruct filp as [p]. cbn in Hf. subst p.
  destruct w as [dv msg0 past h r sc]. cbn in Hd, Hm. subst dv msg0.
  unfold seven_segment_write, memset_message, copy_from_user_message.
  unfold bind, write_message, get_world, put_world, ret;
    cbn -[Z.to_nat firstn skipn overlay Z.sub Z.eqb repeat].
  destruct (negb _); reflexivity.
Qed.

Lemma missing_bytes (ubuf : list Z) (count : Z) :
  0 <= count ->
  count - Z.of_nat (length (firstn (Z.to_nat count) ubuf))
  = Z.max 0 (count - Z.of_nat (length ubuf)).
Proof. intros Hc. rewrite length_firstn. lia. Qed.

Lemma copied_delivered (ubuf : list Z) (count : Z) :
  0 <= count <= Z.of_nat (length ubuf) ->
  copied ubuf count = firstn (Z.to_nat count) ubuf.
Proof.
  intros Hc. unfold copied. rewrite missing_bytes by lia.
  replace (Z.max 0 (count - Z.of_nat (length ubuf))) with 0 by lia.
  cbn [Z.to_nat repeat]. apply app_nil_r.
Qed.

(** With at least one byte delivered, [message[0]] is the first byte of
    the caller's buffer. *)
Lemma message_first_byte (c : Z) (rest : list Z) (count : Z) :
  1 <= count <= Z.of_nat (length (c :: rest)) ->
  firstn 1 (overlay (copied (c :: rest) count) [0]) = [c].
Proof.
  intros Hc. rewrite copied_delivered by lia.
  destruct (Z.to_nat count) as [|n] eqn:E; [lia|]. reflexivity.
Qed.

Lemma active_inv (w : world) :
  active w = true ->
  exists d m, seven_segment_devp w = Some d /\ message w = Some [m].
Proof.
  unfold active. destruct (seven_segment_devp w) as [d|]; [|discriminate].
  destruct (message w) as [[|m [|m' l]]|]; try discriminate.
  intros _. exists d, m. split; reflexivity.
Qed.

Lemma shown_digit (a : abi) (d : Z) :
  0 <= d <= 9 -> int_to_char (chr_0 + char_to_int a d) = chr_0 + d.
Proof.
  unfold int_to_char, char_to_int, chr_0; intros Hd.
  destruct (char_sign a); [destruct (Z.ltb_spec d 128)|]; mod_lia.
Qed.

Lemma read_all_writable (a : abi) (w : world) (dv : seven_segment_dev)
    (filp : file) (count : Z) :
  seven_segment_devp w = Some dv ->
  private_data filp = DEVP ->
  0 <= count ->
  seven_segment_read a filp (fun _ => true) count w
  = Some ((count,
           repeat (int_to_char (chr_0 + char_to_int a (digit_to_display dv)))
                  (Z.to_nat count)), w).
Proof.
  intros Hd Hf Hc. unfold seven_segment_read. rewrite Hf.
  destruct (read_loop_spec a (fun _ => true) w dv Hd (Z.to_nat count) 0 [])
    as (k & Hk & Hle & _ & Hstop).
  assert (k = Z.to_nat count) as ->.
  { destruct (Nat.eq_dec k (Z.to_nat count)) as [E|E]; [exact E|].
    assert (k < Z.to_nat count)%nat as Hlt by lia.
    specialize (Hstop Hlt). discriminate. }
  rewrite Hk. cbn [app]. rewrite Z2Nat.id by lia. reflexivity.
Qed.

Lemma reads_back_intro (a : abi) (w : world) (dv : seven_segment_dev)
    (c : Z) :
  seven_segment_devp w = Some dv ->
  int_to_char (chr_0 + char_to_int a (digit_to_display dv)) = c ->
  reads_back a w c.
Proof.
  intros Hd Hc. split.
  - rewrite (show_spec a w dv Hd), Hc. reflexivity.
  - intros count Hcount.
    rewrite (read_all_writable a w dv opened count Hd eq_refl) by lia.
    rewrite Hc. reflexivity.
Qed.

(** [seven_segment_write] applies no test: whatever byte [c] comes first,
    the register becomes [c - '0'] and the actuator is called on it. *)
Lemma write_stores_any_byte (a : abi) (filp : file) (c : Z) (rest : list Z)
    (count : Z) (w : world) :
  active w = true ->
  private_data filp = DEVP ->
  1 <= count <= Z.of_nat (length (c :: rest)) ->
  seven_segment_write a filp (c :: rest) count w
  = Some (size_to_ssize a count,
          updated (after_copy w (c :: rest) count)
                  (int_to_char (char_to_int a c - chr_0)) [c]).
Proof.
  intros Hact Hf Hc.
  destruct (active_inv w Hact) as (dv & m & Hdv & Hm).
  rewrite (write_unfold a filp _ count w dv m Hf Hdv Hm).
  rewrite missing_bytes by lia.
  replace (Z.max 0 (count - Z.of_nat (length (c :: rest)))) with 0 by lia.
  cbn [Z.eqb negb]. cbv zeta. rewrite message_first_byte by exact Hc.
  reflexivity.
Qed.

(** So every byte, digit or not, reads back as written. *)
Lemma write_any_byte_reads_back (a : abi) (filp : file) (c : Z)
    (rest : list Z) (count : Z) (w : world) :
  active w = true ->
  private_data filp = DEVP ->
  is_byte c ->
  1 <= count <= Z.of_nat (length (c :: rest)) ->
  exists w',
    seven_segment_write a filp (c :: rest) count w
    = Some (size_to_ssize a count, w') /\
    reads_back a w' c.
Proof.
  intros Hact Hf Hb Hc.
  rewrite (write_stores_any_byte a filp c rest count w Hact Hf Hc).
  eexists. split; [reflexivity|].
  apply (reads_back_intro a _ (mk_dev (int_to_char (char_to_int a c - chr_0))));
    [reflexivity|].
  apply stored_char_shown; exact Hb.
Qed.

(** ** Module load *)

Lemma init_all_ok : seven_segment_init all_ok unloaded = Some (0, booted).
Proof. reflexivity. Qed.

(** Whatever the kernel answers, a load that reports success leaves the
    register at 1. *)
Lemma init_sets_one (k : kernel_api) (w : world) :
  seven_segment_init k unloaded = Some (0, w) ->
  seven_segment_devp w = Some (mk_dev 1).
Proof.
  destruct k as [e1 e2 b3 j3 e4 b5 b6 j6].
  destruct e1, e2, b3, e4, b5, b6; cbn; intros H; inversion H; reflexivity.
Qed.

Lemma init_digit_ok (a : abi) (k : kernel_api) (w : world) :
  seven_segment_init k unloaded = Some (0, w) -> digit_ok a w = true.
Proof.
  intros H. apply init_sets_one in H. unfold digit_ok. rewrite H.
  destruct a as [[] ?]; reflexivity.
Qed.

(** The attribute store keeps the register a decimal digit. *)
Lemma store_keeps_digit_ok (a : abi) (buf : list Z) (count : Z)
    (w w' : world) (r : Z) :
  is_byte (nth 0 buf 0) ->
  digit_ok a w = true ->
  digit_to_display_store a buf count w = Some (r, w') ->
  digit_ok a w' = true.
Proof.
  intros Hb Hok Hs.
  destruct ((char_to_int a (nth 0 buf 0) - chr_0 <? 10)
            && (char_to_int a (nth 0 buf 0) - chr_0 >=? 0)) eqn:Ht.
  - unfold digit_ok in Hok.
    destruct (seven_segment_devp w) as [dv|] eqn:Hd; [|discriminate].
    rewrite (store_accepts a buf count w dv Hd Ht) in Hs.
    inversion Hs; subst. unfold digit_ok, updated; cbn.
    apply (digit_test a _ Hb) in Ht.
    replace (char_to_int a (nth 0 buf 0)) with (nth 0 buf 0).
    + replace (nth 0 buf 0 - chr_0)
        with (char_to_int a (chr_0 + (nth 0 buf 0 - chr_0)) - chr_0).
      * rewrite stored_digit_value by (unfold chr_0 in *; lia).
        unfold char_to_int, chr_0 in *.
        destruct (char_sign a);
          [destruct (Z.ltb_spec (nth 0 buf 0 - 48) 128)|]; lia.
      * unfold char_to_int, chr_0 in *.
        destruct (char_sign a);
          [destruct (Z.ltb_spec (48 + (nth 0 buf 0 - 48)) 128)|]; lia.
    + unfold char_to_int, chr_0 in *.
      destruct (char_sign a); [destruct (Z.ltb_spec (nth 0 buf 0) 128)|]; lia.
  - rewrite (store_rejects a buf count w Ht) in Hs.
    inversion Hs; subst. exact Hok.
Qed.

(** A byte outside ['0'..'9'] goes through the attribute store without
    any effect. *)
Lemma store_rejects_non_digit (a : abi) (b : Z) (rest : list Z) (count : Z)
    (w : world) :
  is_byte b -> ~ (chr_0 <= b <= chr_0 + 9) ->
  digit_to_display_store a (b :: rest) count w = Some (1, w).
Proof.
  intros Hb Hn. apply store_rejects. cbn [nth].
  destruct ((char_to_int a b - chr_0 <? 10) && (char_to_int a b - chr_0 >=? 0))
    eqn:Ht; [|reflexivity].
  apply (digit_test a b Hb) in Ht. contradiction.
Qed.

(** The other exits of [seven_segment_init], one per failing step. *)
Lemma init_region_failure (e : positive) (k : kernel_api) :
  alloc_chrdev_region_err k = Some e ->
  seven_segment_init k unloaded = Some (-1, unloaded).
Proof.
  destruct k as [e1 e2 b3 j3 e4 b5 b6 j6]; cbn. intros ->. reflexivity.
Qed.

Lemma init_class_failure (e : positive) (j3 j6 : Z) (e4 : option positive)
    (b3 b5 b6 : bool) :
  seven_segment_init (mk_api None (Some e) b3 j3 e4 b5 b6 j6) unloaded
  = Some (- EINVAL, mk_world None None [] [] [ChrdevRegion] []).
Proof. reflexivity. Qed.

Lemma init_cdev_failure (e : positive) (j3 j6 : Z) (b5 b6 : bool) :
  seven_segment_init (mk_api None None true j3 (Some e) b5 b6 j6) unloaded
  = Some (Z.neg e,
          mk_world (Some (mk_dev 1)) None [] [DevMemory]
                   [DeviceNode; DisplayClass; ChrdevRegion] []).
Proof. reflexivity. Qed.

Lemma init_node_failure (j3 j6 : Z) (b6 : bool) :
  seven_segment_init (mk_api None None true j3 None false b6 j6) unloaded
  = Some (-1,
          mk_world (Some (mk_dev 1)) None [] [CharDevice; DevMemory]
                   [DisplayClass; ChrdevRegion] []).
Proof. reflexivity. Qed.

Lemma init_message_failure (j3 j6 : Z) :
  seven_segment_init (mk_api None None true j3 None true false j6) unloaded
  = Some (0,
          mk_world (Some (mk_dev 1)) None []
                   [DeviceNode; CharDevice; DevMemory; DisplayClass;
                    ChrdevRegion] [] []).
Proof. reflexivity. Qed.

(** * The claims *)

(** C1.  A byte that is not a decimal digit should leave the register and
    the actuator alone on both write paths.  [seven_segment_write] has no
    test: written to a freshly loaded device, the byte ['a'] (97) is
    stored as [97 - '0' = 49], [display_on_screen] is called on it, and
    the call returns 1. *)
Theorem write_takes_non_digit (a : abi) :
  ~ (chr_0 <= 97 <= chr_0 + 9) /\
  seven_segment_devp booted = Some (mk_dev 1) /\
  screen booted = [] /\
  exists w',
    seven_segment_write a opened [97] 1 booted = Some (1, w') /\
    seven_segment_devp w' = Some (mk_dev 49) /\
    screen w' = [[97]].
Proof.
  split; [unfold chr_0; lia|]. split; [reflexivity|]. split; [reflexivity|].
  destruct a as [[] []]; eexists; repeat split.
Qed.

(** C2.  The register should always hold a value in 0..9.  It does after
    a load, but one write of the byte [':'] (58) through
    [seven_segment_write] leaves it at 10. *)
Theorem write_leaves_digit_range (a : abi) :
  digit_ok a booted = true /\
  exists w',
    seven_segment_write a opened [58] 1 booted = Some (1, w') /\
    seven_segment_devp w' = Some (mk_dev 10) /\
    digit_ok a w' = false.
Proof.
  split; [destruct a as [[] ?]; reflexivity|].
  destruct a as [[] []]; eexists; repeat split.
Qed.

(** C3.  A failing acquisition step should give back everything acquired
    before it.  When the kmalloc of the device structure fails,
    [seven_segment_init] returns [-ENOMEM] with the chrdev region and the
    class still held and no release call made. *)
Theorem init_kmalloc_failure_leaks (j3 j6 : Z) (e4 : option positive)
    (b5 b6 : bool) :
  seven_segment_init (mk_api None None false j3 e4 b5 b6 j6) unloaded
  = Some (- ENOMEM,
          mk_world None None [] [DisplayClass; ChrdevRegion] [] []).
Proof. reflexivity. Qed.

(** C4.  Unloading should release in the reverse of the acquisition
    order.  [seven_segment_exit] after a successful load releases the
    chrdev region first and the class last, frees the device structure
    before destroying the node, and leaves the character device and the
    message buffer held. *)
Theorem exit_release_order :
  exists w',
    seven_segment_exit booted = Some (tt, w') /\
    released w' = [ChrdevRegion; DevMemory; DeviceNode; DisplayClass] /\
    released w' <> reverse_order_of (released w') /\
    held w' = [MessageBuffer; CharDevice].
Proof.
  eexists. split; [reflexivity|]. cbn. repeat split; discriminate.
Qed.

(** C5.  On an active device, a write of [count] bytes returns [count]
    when the caller's buffer delivers them, and [-EFAULT] exactly when it
    does not; the attribute store, the one path that rejects bytes, never
    returns that value. *)
Theorem write_return_value (a : abi) (filp : file) (ubuf : list Z)
    (count : Z) (w : world) :
  active w = true ->
  private_data filp = DEVP ->
  0 <= count <= SSIZE_MAX a ->
  exists r w',
    seven_segment_write a filp ubuf count w = Some (r, w') /\
    (count <= Z.of_nat (length ubuf) -> r = count) /\
    (r = - EFAULT <-> Z.of_nat (length ubuf) < count) /\
    (forall buf n r1 w1,
        digit_to_display_store a buf n w = Some (r1, w1) -> r1 <> - EFAULT).
Proof.
  intros Hact Hf Hc.
  destruct (active_inv w Hact) as (d & m & Hd & Hm).
  rewrite (write_unfold a filp ubuf count w d m Hf Hd Hm).
  rewrite missing_bytes by lia.
  assert (Hstore : forall buf n r1 w1,
             digit_to_display_store a buf n w = Some (r1, w1) ->
             r1 <> - EFAULT).
  { intros buf n r1 w1 Hs.
    destruct ((char_to_int a (nth 0 buf 0) - chr_0 <? 10)
              && (char_to_int a (nth 0 buf 0) - chr_0 >=? 0)) eqn:Ht.
    - rewrite (store_accepts a buf n w d Hd Ht) in Hs.
      inversion Hs. unfold EFAULT. lia.
    - rewrite (store_rejects a buf n w Ht) in Hs.
      inversion Hs. unfold EFAULT. lia. }
  destruct (Z.eqb_spec (Z.max 0 (count - Z.of_nat (length ubuf))) 0) as [E|E];
    cbn [negb].
  - eexists; eexists. split; [reflexivity|].
    rewrite size_to_ssize_small by lia. unfold EFAULT.
    repeat split; try lia. exact Hstore.
  - eexists; eexists. split; [reflexivity|].
    repeat split; try lia. exact Hstore.
Qed.

Lemma write_return_value_witness :
  exists r w',
    seven_segment_write (mk_abi UnsignedChar W32) opened [51; 10] 2 booted
    = Some (r, w') /\
    (2 <= Z.of_nat (length [51; 10]) -> r = 2) /\
    (r = - EFAULT <-> Z.of_nat (length [51; 10]) < 2) /\
    (forall buf n r1 w1,
        digit_to_display_store (mk_abi UnsignedChar W32) buf n booted
        = Some (r1, w1) -> r1 <> - EFAULT).
Proof.
  apply (write_return_value (mk_abi UnsignedChar W32) opened [51; 10] 2
                            booted).
  - reflexivity.
  - reflexivity.
  - vm_compute. split; discriminate.
Defined.

(** C6.  A write should copy at most one byte into the one-byte buffer
    [message].  [seven_segment_write] asks [copy_from_user] for [count]
    bytes: a write of ["12"] puts ['1'] in [message] and ['2'] in the byte
    after it. *)
Theorem write_copies_count_bytes (a : abi) :
  message booted = Some [0] /\
  past_message booted = [] /\
  exists w',
    seven_segment_write a opened [49; 50] 2 booted = Some (2, w') /\
    message w' = Some [49] /\
    past_message w' = [50].
Proof.
  split; [reflexivity|]. split; [reflexivity|].
  destruct a as [[] []]; eexists; repeat split.
Qed.

(** C7.  For a digit [d], once the character ['0' + d] has gone in through
    the file write (as the first of [count] delivered bytes) or through
    the attribute store, both read paths give ['0' + d] back: the
    attribute shows it followed by a newline, a file read gives it at
    every position. *)
Theorem digit_written_reads_back (a : abi) (d : Z) (rest : list Z)
    (count : Z) (filp : file) (w : world) :
  active w = true ->
  private_data filp = DEVP ->
  0 <= d <= 9 ->
  1 <= count <= Z.of_nat (length ((chr_0 + d) :: rest)) ->
  count <= SSIZE_MAX a ->
  (exists w1,
      seven_segment_write a filp ((chr_0 + d) :: rest) count w
      = Some (count, w1) /\
      reads_back a w1 (chr_0 + d)) /\
  (exists w2,
      digit_to_display_store a ((chr_0 + d) :: rest) count w = Some (1, w2) /\
      reads_back a w2 (chr_0 + d)).
Proof.
  intros Hact Hf Hd Hc Hmax.
  destruct (active_inv w Hact) as (dv & m & Hdv & Hm).
  split.
  - rewrite (write_unfold a filp _ count w dv m Hf Hdv Hm).
    rewrite missing_bytes by lia.
    replace (Z.max 0 (count - Z.of_nat (length ((chr_0 + d) :: rest))))
      with 0 by lia.
    cbn [Z.eqb negb]. cbv zeta. rewrite message_first_byte by exact Hc.
    cbn [nth]. rewrite size_to_ssize_small by lia.
    rewrite stored_digit_value by exact Hd.
    eexists. split; [reflexivity|].
    apply (reads_back_intro a _ (mk_dev d)); [reflexivity|].
    apply shown_digit; exact Hd.
  - assert (Ht : (char_to_int a (nth 0 ((chr_0 + d) :: rest) 0) - chr_0 <? 10)
                 && (char_to_int a (nth 0 ((chr_0 + d) :: rest) 0) - chr_0
                     >=? 0) = true).
    { apply digit_test; cbn [nth]; unfold is_byte, chr_0; lia. }
    rewrite (store_accepts a _ count w dv Hdv Ht). cbn [nth].
    rewrite stored_digit_value by exact Hd.
    eexists. split; [reflexivity|].
    apply (reads_back_intro a _ (mk_dev d)); [reflexivity|].
    apply shown_digit; exact Hd.
Qed.

Lemma digit_written_reads_back_witness :
  (exists w1,
      seven_segment_write (mk_abi SignedChar W64) opened [chr_0 + 7; 10] 2
                          booted
      = Some (2, w1) /\
      reads_back (mk_abi SignedChar W64) w1 (chr_0 + 7)) /\
  (exists w2,
      digit_to_display_store (mk_abi SignedChar W64) [chr_0 + 7; 10] 2 booted
      = Some (1, w2) /\
      reads_back (mk_abi SignedChar W64) w2 (chr_0 + 7)).
Proof.
  apply (digit_written_reads_back (mk_abi SignedChar W64) 7 [10] 2 opened
                                  booted).
  - reflexivity.
  - reflexivity.
  - lia.
  - cbn. lia.
  - vm_compute. discriminate.
Defined.

(** C8.  A read of [count] bytes on an allocated device stores [n] bytes,
    [0 <= n <= count], each of them ['0' + digit_to_display], and returns
    [n]; every position before [n] accepted its byte, and [n < count]
    only because [put_user] refused position [n].  The short count is the
    return value, not an error code. *)
Theorem read_gives_current_digit (a : abi) (filp : file)
    (writable : Z -> bool) (count : Z) (w : world) (dv : seven_segment_dev) :
  seven_segment_devp w = Some dv ->
  private_data filp = DEVP ->
  0 <= count <= SSIZE_MAX a ->
  exists n,
    seven_segment_read a filp writable count w
    = Some ((n, repeat (int_to_char
                          (chr_0 + char_to_int a (digit_to_display dv)))
                       (Z.to_nat n)), w) /\
    0 <= n <= count /\
    (forall i, 0 <= i < n -> writable i = true) /\
    (n < count -> writable n = false) /\
    ((forall i, 0 <= i < count -> writable i = true) -> n = count).
Proof.
  intros Hd Hf Hc. unfold seven_segment_read. rewrite Hf.
  destruct (read_loop_spec a writable w dv Hd (Z.to_nat count) 0 [])
    as (k & Hk & Hle & Hall & Hstop).
  exists (Z.of_nat k). rewrite Hk. cbn [app Z.add]. rewrite Nat2Z.id.
  split; [reflexivity|]. split; [lia|]. split; [exact Hall|].
  assert (Hshort : Z.of_nat k < count -> writable (Z.of_nat k) = false).
  { intros Hlt. apply Hstop. lia. }
  split; [exact Hshort|].
  intros Hw. destruct (Z.eq_dec (Z.of_nat k) count) as [E|E]; [exact E|].
  assert (Hlt : Z.of_nat k < count) by lia.
  specialize (Hshort Hlt). rewrite Hw in Hshort by lia. discriminate.
Qed.

Lemma read_gives_current_digit_witness :
  exists n,
    seven_segment_read (mk_abi UnsignedChar W32) opened (fun i => i <? 3) 5
                       booted
    = Some ((n, repeat (int_to_char
                          (chr_0 + char_to_int (mk_abi UnsignedChar W32)
                                               (digit_to_display (mk_dev 1))))
                       (Z.to_nat n)), booted) /\
    0 <= n <= 5 /\
    (forall i, 0 <= i < n -> (i <? 3) = true) /\
    (n < 5 -> (n <? 3) = false) /\
    ((forall i, 0 <= i < 5 -> (i <? 3) = true) -> n = 5).
Proof.
  apply (read_gives_current_digit (mk_abi UnsignedChar W32) opened
                                  (fun i => i <? 3) 5 booted (mk_dev 1)).
  - reflexivity.
  - reflexivity.
  - vm_compute. split; discriminate.
Defined.

(** C9.  On an allocated device the attribute store returns 1 for every
    buffer and every count. *)
Theorem store_returns_one (a : abi) (buf : list Z) (count : Z) (w : world)
    (dv : seven_segment_dev) :
  seven_segment_devp w = Some dv ->
  exists w', digit_to_display_store a buf count w = Some (1, w').
Proof.
  intros Hd.
  destruct ((char_to_int a (nth 0 buf 0) - chr_0 <? 10)
            && (char_to_int a (nth 0 buf 0) - chr_0 >=? 0)) eqn:Ht.
  - rewrite (store_accepts a buf count w dv Hd Ht). eexists; reflexivity.
  - rewrite (store_rejects a buf count w Ht). eexists; reflexivity.
Qed.

Lemma store_returns_one_witness :
  exists w',
    digit_to_display_store (mk_abi UnsignedChar W32) [] 0 booted
    = Some (1, w').
Proof.
  apply (store_returns_one (mk_abi UnsignedChar W32) [] 0 booted (mk_dev 1)).
  reflexivity.
Defined.

(** C10.  The two read paths only observe: on an allocated device both
    return, and whenever either returns, the world (register, message
    buffer, held resources, actuator calls) is the one it started in. *)
Theorem readers_only_observe (a : abi) (filp : file) (writable : Z -> bool)
    (count : Z) (w : world) (dv : seven_segment_dev) :
  seven_segment_devp w = Some dv ->
  private_data filp = DEVP ->
  (exists r, seven_segment_read a filp writable count w = Some (r, w)) /\
  (exists r, digit_to_display_show a w = Some (r, w)) /\
  (forall f wr n r w',
      seven_segment_read a f wr n w = Some (r, w') -> w' = w) /\
  (forall r w', digit_to_display_show a w = Some (r, w') -> w' = w).
Proof.
  intros Hd Hf. split; [|split; [|split]].
  - unfold seven_segment_read. rewrite Hf.
    destruct (read_loop_spec a writable w dv Hd (Z.to_nat count) 0 [])
      as (k & Hk & _). rewrite Hk. eexists; reflexivity.
  - rewrite (show_spec a w dv Hd). eexists; reflexivity.
  - intros f wr n r w' H. unfold seven_segment_read in H.
    exact (read_loop_frame a _ wr _ _ _ w r w' H).
  - intros r w' H. exact (show_frame a w w' r H).
Qed.

Lemma readers_only_observe_witness :
  (exists r,
      seven_segment_read (mk_abi SignedChar W32) opened (fun _ => true) 4
                         booted = Some (r, booted)) /\
  (exists r,
      digit_to_display_show (mk_abi SignedChar W32) booted
      = Some (r, booted)) /\
  (forall f wr n r w',
      seven_segment_read (mk_abi SignedChar W32) f wr n booted
      = Some (r, w') -> w' = booted) /\
  (forall r w',
      digit_to_display_show (mk_abi SignedChar W32) booted = Some (r, w') ->
      w' = booted).
Proof.
  apply (readers_only_observe (mk_abi SignedChar W32) opened (fun _ => true)
                              4 booted (mk_dev 1)).
  - reflexivity.
  - reflexivity.
Defined.

(** * Further properties of the entry points *)

(** ** The attribute *)

(** X1.  An attribute buffer whose first byte is not one of ['0'..'9']
    (an empty buffer included: it reads as 0) is taken without any effect
    and answered with 1, even when no device structure is allocated. *)
Theorem store_non_digit_no_effect (a : abi) (buf : list Z) (count : Z)
    (w : world) :
  is_byte (nth 0 buf 0) ->
  ~ (chr_0 <= nth 0 buf 0 <= chr_0 + 9) ->
  digit_to_display_store a buf count w = Some (1, w).
Proof.
  intros Hb Hn. apply store_rejects.
  destruct ((char_to_int a (nth 0 buf 0) - chr_0 <? 10)
            && (char_to_int a (nth 0 buf 0) - chr_0 >=? 0)) eqn:Ht;
    [|reflexivity].
  apply (digit_test a _ Hb) in Ht. contradiction.
Qed.

Lemma store_non_digit_no_effect_witness :
  digit_to_display_store (mk_abi SignedChar W32) [] 0 unloaded
  = Some (1, unloaded).
Proof.
  apply (store_non_digit_no_effect (mk_abi SignedChar W32) [] 0 unloaded).
  - cbn. unfold is_byte. lia.
  - cbn. unfold chr_0. lia.
Defined.

(** X2.  A buffer that starts with the digit character ['0' + d] sets the
    register to [d] and calls the actuator once, on the whole buffer;
    nothing else changes and the answer is 1. *)
Theorem store_digit_effect (a : abi) (d : Z) (rest : list Z) (count : Z)
    (w : world) (dv : seven_segment_dev) :
  seven_segment_devp w = Some dv ->
  0 <= d <= 9 ->
  digit_to_display_store a ((chr_0 + d) :: rest) count w
  = Some (1, mk_world (Some (mk_dev d)) (message w) (past_message w)
                      (held w) (released w)
                      (screen w ++ [(chr_0 + d) :: rest])).
Proof.
  intros Hdv Hd.
  assert (Ht : (char_to_int a (nth 0 ((chr_0 + d) :: rest) 0) - chr_0 <? 10)
               && (char_to_int a (nth 0 ((chr_0 + d) :: rest) 0) - chr_0
                   >=? 0) = true).
  { apply digit_test; cbn [nth]; unfold is_byte, chr_0; lia. }
  rewrite (store_accepts a _ count w dv Hdv Ht). cbn [nth].
  rewrite stored_digit_value by exact Hd. reflexivity.
Qed.

Lemma store_digit_effect_witness :
  digit_to_display_store (mk_abi UnsignedChar W64) [chr_0 + 4; chr_nl] 2
                         booted
  = Some (1, mk_world (Some (mk_dev 4)) (message booted)
                      (past_message booted) (held booted) (released booted)
                      (screen booted ++ [[chr_0 + 4; chr_nl]])).
Proof.
  apply (store_digit_effect (mk_abi UnsignedChar W64) 4 [chr_nl] 2 booted
                            (mk_dev 1)).
  - reflexivity.
  - lia.
Defined.

(** The character printed for register content [d] passes the test of
    the attribute store exactly when [d] is a decimal digit. *)
Lemma shown_char_test (a : abi) (d : Z) :
  is_byte d ->
  (char_to_int a (int_to_char (chr_0 + char_to_int a d)) - chr_0 <? 10)
  && (char_to_int a (int_to_char (chr_0 + char_to_int a d)) - chr_0 >=? 0)
  = (0 <=? char_to_int a d) && (char_to_int a d <=? 9).
Proof.
  intros Hd. unfold is_byte in Hd.
  apply eq_true_iff_eq.
  rewrite (digit_test a _ (int_to_char_byte _)).
  rewrite andb_true_iff, Z.leb_le, Z.leb_le.
  unfold int_to_char, char_to_int, chr_0.
  destruct (char_sign a); [destruct (Z.ltb_spec d 128)|]; mod_lia.
Qed.

(** X3.  Feeding the attribute what it shows never changes the register:
    the store of the shown text leaves it as it was, with one actuator
    call on that text when it holds a digit and none otherwise. *)
Theorem store_of_shown_text (a : abi) (w : world) (dv : seven_segment_dev) :
  seven_segment_devp w = Some dv ->
  is_byte (digit_to_display dv) ->
  exists text w',
    digit_to_display_show a w = Some ((2, text), w) /\
    digit_to_display_store a text 2 w = Some (1, w') /\
    seven_segment_devp w' = seven_segment_devp w /\
    screen w' = (if digit_ok a w then screen w ++ [text] else screen w).
Proof.
  intros Hdv Hb.
  rewrite (show_spec a w dv Hdv).
  set (c := int_to_char (chr_0 + char_to_int a (digit_to_display dv))).
  pose proof (shown_char_test a _ Hb) as Ht. fold c in Ht.
  unfold digit_ok. rewrite Hdv.
  destruct ((0 <=? char_to_int a (digit_to_display dv))
            && (char_to_int a (digit_to_display dv) <=? 9)) eqn:Hok.
  - exists [c; chr_nl]. eexists. split; [reflexivity|].
    rewrite (store_accepts a [c; chr_nl] 2 w dv Hdv Ht). cbn [nth].
    split; [reflexivity|]. split; [|reflexivity].
    unfold updated; cbn [seven_segment_devp]. f_equal.
    apply andb_true_iff in Hok. destruct Hok as [H0 H9].
    apply Z.leb_le in H0, H9.
    assert (Hd : digit_to_display dv = char_to_int a (digit_to_display dv)).
    { unfold is_byte in Hb. unfold char_to_int in *.
      destruct (char_sign a);
        [destruct (Z.ltb_spec (digit_to_display dv) 128)|]; lia. }
    assert (Hr : 0 <= digit_to_display dv <= 9) by lia.
    unfold c. rewrite shown_digit by exact Hr.
    rewrite stored_digit_value by exact Hr.
    destruct dv as [v]. reflexivity.
  - exists [c; chr_nl], w. split; [reflexivity|].
    rewrite (store_rejects a [c; chr_nl] 2 w Ht).
    split; [reflexivity|]. split; [exact Hdv|reflexivity].
Qed.

Lemma store_of_shown_text_witness :
  exists text w',
    digit_to_display_show (mk_abi SignedChar W32) booted
    = Some ((2, text), booted) /\
    digit_to_display_store (mk_abi SignedChar W32) text 2 booted
    = Some (1, w') /\
    seven_segment_devp w' = seven_segment_devp booted /\
    screen w' = (if digit_ok (mk_abi SignedChar W32) booted
                 then screen booted ++ [text] else screen booted).
Proof.
  apply (store_of_shown_text (mk_abi SignedChar W32) booted (mk_dev 1)).
  - reflexivity.
  - cbn. unfold is_byte. lia.
Defined.

(** ** The file write *)

Lemma size_to_ssize_zero (a : abi) : size_to_ssize a 0 = 0.
Proof. destruct a as [s []]; reflexivity. Qed.

Lemma char_to_int_zero (a : abi) : char_to_int a 0 = 0.
Proof. destruct a as [[] ?]; reflexivity. Qed.

(** X4.  A delivered write stores whatever byte comes first, digit or
    not: the actuator is called once on that byte, and both read paths
    then give the very byte that was written. *)
Theorem write_effect_any_byte (a : abi) (filp : file) (c : Z)
    (rest : list Z) (count : Z) (w : world) :
  active w = true ->
  private_data filp = DEVP ->
  is_byte c ->
  1 <= count <= Z.of_nat (length (c :: rest)) ->
  count <= SSIZE_MAX a ->
  exists w',
    seven_segment_write a filp (c :: rest) count w = Some (count, w') /\
    screen w' = screen w ++ [[c]] /\
    message w' = Some [c] /\
    reads_back a w' c.
Proof.
  intros Hact Hf Hb Hc Hmax.
  rewrite (write_stores_any_byte a filp c rest count w Hact Hf Hc).
  rewrite size_to_ssize_small by lia.
  eexists. split; [reflexivity|].
  split; [reflexivity|]. split.
  - unfold updated, after_copy. cbn [message].
    rewrite message_first_byte by exact Hc. reflexivity.
  - apply (reads_back_intro a _
             (mk_dev (int_to_char (char_to_int a c - chr_0))));
      [reflexivity|].
    apply stored_char_shown; exact Hb.
Qed.

Lemma write_effect_any_byte_witness :
  exists w',
    seven_segment_write (mk_abi SignedChar W32) opened [200] 1 booted
    = Some (1, w') /\
    screen w' = screen booted ++ [[200]] /\
    message w' = Some [200] /\
    reads_back (mk_abi SignedChar W32) w' 200.
Proof.
  apply (write_effect_any_byte (mk_abi SignedChar W32) opened 200 [] 1
                               booted).
  - reflexivity.
  - reflexivity.
  - unfold is_byte. lia.
  - cbn. lia.
  - vm_compute. discriminate.
Defined.



(** X6.  A write of length 0 is not a no-op: the byte that [memset] left
    in the message buffer is taken as the input, so the register becomes
    ['\0' - '0'] (raw byte 208), the actuator is called on that zero byte
    and the call returns 0. *)
Theorem write_of_nothing (a : abi) (filp : file) (ubuf : list Z)
    (w : world) :
  active w = true ->
  private_data filp = DEVP ->
  seven_segment_write a filp ubuf 0 w
  = Some (0, mk_world (Some (mk_dev 208)) (Some [0]) (past_message w)
                      (held w) (released w) (screen w ++ [[0]])).
Proof.
  intros Hact Hf.
  destruct (active_inv w Hact) as (dv & m & Hdv & Hm).
  rewrite (write_unfold a filp ubuf 0 w dv m Hf Hdv Hm).
  cbn. rewrite size_to_ssize_zero, char_to_int_zero. reflexivity.
Qed.

Lemma write_of_nothing_witness :
  seven_segment_write (mk_abi UnsignedChar W64) opened [51] 0 booted
  = Some (0, mk_world (Some (mk_dev 208)) (Some [0]) (past_message booted)
                      (held booted) (released booted)
                      (screen booted ++ [[0]])).
Proof.
  apply (write_of_nothing (mk_abi UnsignedChar W64) opened [51] booted).
  - reflexivity.
  - reflexivity.
Defined.

(** X7.  How far a delivered write runs over the one-byte message
    buffer: the [count - 1] bytes after the first are stored right past
    its end, over what was there; a write of at most one byte stays
    inside the buffer. *)
Theorem write_overrun_extent (a : abi) (filp : file) (ubuf : list Z)
    (count : Z) (w : world) :
  active w = true ->
  private_data filp = DEVP ->
  0 <= count <= Z.of_nat (length ubuf) ->
  exists r w',
    seven_segment_write a filp ubuf count w = Some (r, w') /\
    past_message w'
    = overlay (skipn 1 (firstn (Z.to_nat count) ubuf)) (past_message w) /\
    length (skipn 1 (firstn (Z.to_nat count) ubuf)) = Z.to_nat (count - 1) /\
    (count <= 1 -> past_message w' = past_message w).
Proof.
  intros Hact Hf Hc.
  destruct (active_inv w Hact) as (dv & m & Hdv & Hm).
  rewrite (write_unfold a filp ubuf count w dv m Hf Hdv Hm).
  rewrite missing_bytes by lia.
  replace (Z.max 0 (count - Z.of_nat (length ubuf))) with 0 by lia.
  cbn [Z.eqb negb]. cbv zeta. eexists; eexists. split; [reflexivity|].
  unfold updated, after_copy. cbn [past_message].
  rewrite copied_delivered by exact Hc.
  split; [reflexivity|]. split.
  - rewrite length_skipn, firstn_length_le by lia. lia.
  - intros H1. destruct (Z.to_nat count) as [|[|n]] eqn:En; [| |lia].
    + reflexivity.
    + destruct ubuf as [|c rest]; reflexivity.
Qed.

Lemma write_overrun_extent_witness :
  exists r w',
    seven_segment_write (mk_abi UnsignedChar W32) opened [49; 50; 51; 10] 4
                        booted = Some (r, w') /\
    past_message w'
    = overlay (skipn 1 (firstn (Z.to_nat 4) [49; 50; 51; 10]))
              (past_message booted) /\
    length (skipn 1 (firstn (Z.to_nat 4) [49; 50; 51; 10]))
    = Z.to_nat (4 - 1) /\
    (4 <= 1 -> past_message w' = past_message booted).
Proof.
  apply (write_overrun_extent (mk_abi UnsignedChar W32) opened
                              [49; 50; 51; 10] 4 booted).
  - reflexivity.
  - reflexivity.
  - cbn. lia.
Defined.

(** X8.  The message allocation is not checked: a load in which it fails
    still reports success, the attribute and the file read work as after
    any other load, and every later file write dereferences the NULL
    [message]. *)
Theorem write_after_unchecked_kmalloc (k : kernel_api) (w : world) :
  seven_segment_init k unloaded = Some (0, w) ->
  kmalloc_message_ok k = false ->
  message w = None /\
  (forall a, reads_back a w chr_1) /\
  (forall a filp ubuf count, seven_segment_write a filp ubuf count w = None).
Proof.
  destruct k as [e1 e2 b3 j3 e4 b5 b6 j6].
  destruct e1, e2, b3, e4, b5, b6; cbn; intros H Hb6;
    try discriminate; inversion H; subst; clear H.
  split; [reflexivity|]. split.
  - intros a.
    apply (reads_back_intro a _ (mk_dev 1)); [reflexivity|].
    exact (shown_digit a 1 ltac:(lia)).
  - intros a filp ubuf count. reflexivity.
Qed.

Lemma write_after_unchecked_kmalloc_witness :
  message (mk_world (Some (mk_dev 1)) None []
                    [DeviceNode; CharDevice; DevMemory; DisplayClass;
                     ChrdevRegion] [] []) = None /\
  (forall a,
      reads_back a (mk_world (Some (mk_dev 1)) None []
                             [DeviceNode; CharDevice; DevMemory;
                              DisplayClass; ChrdevRegion] [] []) chr_1) /\
  (forall a filp ubuf count,
      seven_segment_write a filp ubuf count
        (mk_world (Some (mk_dev 1)) None []
                  [DeviceNode; CharDevice; DevMemory; DisplayClass;
                   ChrdevRegion] [] []) = None).
Proof.
  apply (write_after_unchecked_kmalloc
           (mk_api None None true 0 None true false 0)).
  - reflexivity.
  - reflexivity.
Defined.

(** ** Module load and unload *)


(** X10.  What a returning load still holds: nothing exactly when the
    failure is in one of the first two services.  A failure of the device
    kmalloc, of [cdev_add] or of [device_create] always leaves something
    held, and nothing [seven_segment_init] releases is released twice. *)
Theorem init_leftovers (k : kernel_api) :
  exists r w,
    seven_segment_init k unloaded = Some (r, w) /\
    (held w = [] <-> fails_early k = true) /\
    NoDup (released w) /\
    (forall x, In x (held w) -> ~ In x (released w)).
Proof.
  destruct k as [e1 e2 b3 j3 e4 b5 b6 j6].
  destruct e1 as [p1|], e2 as [p2|], b3, e4 as [p4|], b5, b6;
    eexists; eexists; (split; [reflexivity|]);
    unfold fails_early; cbn;
    (split; [split; intros; try discriminate; reflexivity|]);
    (split; [repeat constructor; cbn; intuition discriminate|]);
    intros x Hx Hr; cbn in Hx, Hr;
    repeat (destruct Hx as [Hx|Hx]; [subst x|]); try contradiction;
    repeat (destruct Hr as [Hr|Hr]; [discriminate|]); try contradiction.
Qed.



Lemma drop_four (l : list resource) :
  drop DisplayClass (drop DeviceNode (drop DevMemory (drop ChrdevRegion l)))
  = filter never_released l.
Proof.
  induction l as [|x l IH]; [reflexivity|].
  destruct x; cbn; unfold drop in IH; cbn in IH; rewrite ?IH; reflexivity.
Qed.

(** X12.  [seven_segment_exit] runs the same four release calls from any
    world: region, device memory, node, class, in that order.  It has no
    call for the character device or the message buffer: whichever of the
    two was held stays held. *)
Theorem exit_effect (w : world) :
  exists w',
    seven_segment_exit w = Some (tt, w') /\
    released w'
    = released w ++ [ChrdevRegion; DevMemory; DeviceNode; DisplayClass] /\
    held w' = filter never_released (held w) /\
    seven_segment_devp w' = None /\
    message w' = message w /\
    screen w' = screen w.
Proof.
  destruct w as [dv msg past h r sc].
  eexists. split; [reflexivity|]. cbn.
  split; [rewrite <- !app_assoc; reflexivity|].
  split; [apply drop_four|]. repeat split.
Qed.

(** ** Sequences of calls *)





Lemma digit_ok_allocated (a : abi) (w : world) :
  digit_ok a w = true -> exists dv, seven_segment_devp w = Some dv.
Proof.
  unfold digit_ok. destruct (seven_segment_devp w) as [dv|]; [|discriminate].
  intros _. exists dv. reflexivity.
Qed.

Lemma store_returns_through (a : abi) (buf : list Z) (count : Z) (w : world)
    (dv : seven_segment_dev) :
  seven_segment_devp w = Some dv ->
  exists w', digit_to_display_store a buf count w = Some (1, w').
Proof.
  intros Hdv.
  destruct ((char_to_int a (nth 0 buf 0) - chr_0 <? 10)
            && (char_to_int a (nth 0 buf 0) - chr_0 >=? 0)) eqn:Ht.
  - rewrite (store_accepts a buf count w dv Hdv Ht). eexists; reflexivity.
  - rewrite (store_rejects a buf count w Ht). eexists; reflexivity.
Qed.

(** One call other than a file write keeps a decimal digit in the
    register. *)
Lemma serve_keeps_digit_ok (a : abi) (filp : file) (q : request) (w : world) :
  digit_ok a w = true ->
  private_data filp = DEVP ->
  is_write q = false ->
  byte_request q = true ->
  exists w', serve a filp q w = Some (tt, w') /\ digit_ok a w' = true.
Proof.
  intros Hok Hf Hnw Hbyte.
  destruct (digit_ok_allocated a w Hok) as (dv & Hdv).
  destruct q as [|buf count|writable count|ubuf count]; unfold serve, bind;
    [| | |discriminate].
  - rewrite (show_spec a w dv Hdv). exists w. split; [reflexivity|exact Hok].
  - destruct (store_returns_through a buf count w dv Hdv) as (w' & Hs).
    rewrite Hs. exists w'. split; [reflexivity|].
    apply (store_keeps_digit_ok a buf count w w' 1); [|exact Hok|exact Hs].
    cbn in Hbyte. apply andb_true_iff in Hbyte. destruct Hbyte as [H0 H1].
    apply Z.leb_le in H0. apply Z.ltb_lt in H1. split; assumption.
  - unfold seven_segment_read. rewrite Hf.
    destruct (read_loop_spec a writable w dv Hdv (Z.to_nat count) 0 [])
      as (k & Hk & _).
    rewrite Hk. exists w. split; [reflexivity|exact Hok].
Qed.

(** X14.  The register stays a decimal digit under every sequence of
    calls that contains no file write: the attribute store, the attribute
    show and the file read all keep it in 0..9, and none of them faults. *)
Theorem serve_all_keeps_digit_ok (a : abi) (filp : file)
    (qs : list request) :
  forall w,
    digit_ok a w = true ->
    private_data filp = DEVP ->
    forallb (fun q => negb (is_write q) && byte_request q) qs = true ->
    exists w', serve_all a filp qs w = Some (tt, w') /\ digit_ok a w' = true.
Proof.
  induction qs as [|q qs IH]; intros w Hok Hf Hqs; cbn [serve_all].
  - exists w. split; [reflexivity|exact Hok].
  - cbn [forallb] in Hqs. apply andb_true_iff in Hqs.
    destruct Hqs as [Hq Hqs]. apply andb_true_iff in Hq.
    destruct Hq as [Hnw Hb]. apply negb_true_iff in Hnw.
    destruct (serve_keeps_digit_ok a filp q w Hok Hf Hnw Hb)
      as (w1 & Hs & Hok1).
    destruct (IH w1 Hok1 Hf Hqs) as (w' & Hs' & Hok').
    exists w'. unfold bind at 1. rewrite Hs. split; assumption.
Qed.

Lemma serve_all_keeps_digit_ok_witness :
  exists w',
    serve_all (mk_abi SignedChar W64) opened
              [Store [57; 10] 2; Show; Store [120] 1;
               Read (fun _ => true) 3; Store [] 0]
              booted = Some (tt, w') /\
    digit_ok (mk_abi SignedChar W64) w' = true.
Proof.
  apply (serve_all_keeps_digit_ok (mk_abi SignedChar W64) opened
           [Store [57; 10] 2; Show; Store [120] 1;
            Read (fun _ => true) 3; Store [] 0] booted).
  - reflexivity.
  - reflexivity.
  - reflexivity.
Defined.
